(** * ordway: the client facade of [ordway/client.py]

    A shallow embedding of [OrdwayClient]: its constructor, the validated
    [api_version] property, the scope protocol ([__enter__]/[__exit__]) and
    the alternate constructor [from_env].

    Python objects are mutable and shared, exceptions leave every mutation
    made before them in place, and several properties of the client are
    about exactly that (what a failed constructor has already done to a
    session the caller still holds).  The embedding therefore threads an
    explicit world (object heap, session heap, logger calls) through a
    small state-and-exception monad. *)

From Stdlib Require Import Ascii.
From stdpp Require Import ssreflect gmap strings list.

Open Scope string_scope.
Open Scope list_scope.

(** ** A small Python runtime *)

Module Py.

(** The exceptions the client code can raise or meet. *)
Inductive exn : Type :=
| OrdwayClientException (msg : string)
| KeyError (key : string)
| AttributeError (name : string)
| TypeError (msg : string).

Inductive result (A : Type) : Type :=
| Ok (a : A)
| Raise (e : exn).
Arguments Ok {A} a.
Arguments Raise {A} e.

(** References into the two heaps of the world. *)
Definition oref := nat.
Definition sref := nat.

(** Modelled from the spec: the transport session ([requests.Session],
    handed out by [ordway/session.py], neither under src/).  The spec's
    glossary describes it as the holder of default headers and default
    proxies; [close] releases its pooled connections and never raises.
    [close_calls] counts the calls of [close]. *)
Record Session : Type := mkSession {
  headers : gmap string string;
  proxies : gmap string string;
  close_calls : nat
}.

(** What an attribute of a client object can hold.  A resource interface
    ([api.Products(self, sandbox=sandbox)] and its nineteen siblings) is
    modelled from the spec: a facade that keeps a back-reference to its
    client and the sandbox flag; the [api] package is not under src/. *)
Inductive value : Type :=
| VNone
| VStr (s : string)
| VDict (d : gmap string string)
| VSession (r : sref)
| VInterface (kind : string) (client : oref) (sandbox : bool).

Inductive level : Type := DEBUG | ERROR.

(** A call of the module logger: level, format string, arguments. *)
Record LogRecord : Type := mkLogRecord {
  levelname : level;
  msg : string;
  args : list string
}.

(** The world: every object is its attribute dictionary ([__dict__]);
    a reference is an index into its heap, allocation appends. *)
Record World : Type := mkWorld {
  objects : list (gmap string value);
  sessions : list Session;
  log : list LogRecord
}.

(** State and exceptions: a raise keeps the world reached so far. *)
Definition M (A : Type) : Type := World → World * result A.

Definition ret {A} (a : A) : M A := λ w, (w, Ok a).

Definition bind {A B} (m : M A) (k : A → M B) : M B :=
  λ w, match m w with
       | (w', Ok a) => k a w'
       | (w', Raise e) => (w', Raise e)
       end.

Definition raise {A} (e : exn) : M A := λ w, (w, Raise e).

(** [try: body / except <handler's exceptions>]: [handler e = None] lets
    [e] propagate. *)
Definition try_except {A} (body : M A) (handler : exn → option (M A)) : M A :=
  λ w, match body w with
       | (w', Ok a) => (w', Ok a)
       | (w', Raise e) =>
           match handler e with
           | Some h => h w'
           | None => (w', Raise e)
           end
       end.

(** [object.__new__]: a fresh object without attributes. *)
Definition new_object : M oref :=
  λ w, (mkWorld (objects w ++ [∅]) (sessions w) (log w), Ok (length (objects w))).

(** [self.name = v] *)
Definition setattr (self : oref) (name : string) (v : value) : M unit :=
  λ w, (mkWorld (alter (insert name v) self (objects w)) (sessions w) (log w), Ok tt).

(** [self.name] on a plain instance attribute *)
Definition getattr (self : oref) (name : string) : M value :=
  λ w, match objects w !! self ≫= (λ o : gmap string value, o !! name) with
       | Some v => (w, Ok v)
       | None => (w, Raise (AttributeError name))
       end.

(** Modelled from the spec: [Session()] of the transport library, a new
    default session with empty default headers and proxies. *)
Definition new_session : M sref :=
  λ w, (mkWorld (objects w) (sessions w ++ [mkSession ∅ ∅ 0]) (log w),
        Ok (length (sessions w))).

(** [d.update(other)]: keys of [other] win, the other keys of [d] stay. *)
Definition dict_update (d other : gmap string string) : gmap string string :=
  other ∪ d.

(** [session.headers.update(d)] *)
Definition session_headers_update (r : sref) (d : gmap string string) : M unit :=
  λ w, (mkWorld (objects w)
          (alter (λ s, mkSession (dict_update (headers s) d) (proxies s) (close_calls s))
                 r (sessions w))
          (log w), Ok tt).

(** [session.proxies.update(d)] *)
Definition session_proxies_update (r : sref) (d : gmap string string) : M unit :=
  λ w, (mkWorld (objects w)
          (alter (λ s, mkSession (headers s) (dict_update (proxies s) d) (close_calls s))
                 r (sessions w))
          (log w), Ok tt).

(** Modelled from the spec: [session.close()] of the transport library. *)
Definition session_close (r : sref) : M unit :=
  λ w, (mkWorld (objects w)
          (alter (λ s, mkSession (headers s) (proxies s) (S (close_calls s)))
                 r (sessions w))
          (log w), Ok tt).

(** [logger.debug(fmt, *args)] and [logger.error(fmt)] *)
Definition logger_debug (fmt : string) (a : list string) : M unit :=
  λ w, (mkWorld (objects w) (sessions w) (log w ++ [mkLogRecord DEBUG fmt a]), Ok tt).

Definition logger_error (fmt : string) : M unit :=
  λ w, (mkWorld (objects w) (sessions w) (log w ++ [mkLogRecord ERROR fmt []]), Ok tt).

(** [d[k]] on a dictionary of strings ([os.environ] included) *)
Definition getitem (d : gmap string string) (k : string) : M string :=
  match d !! k with
  | Some v => ret v
  | None => raise (KeyError k)
  end.

(** [s.startswith(p)] *)
Definition startswith (s p : string) : bool := String.prefix p s.

(** [s[n:]] *)
Fixpoint slice_from (n : nat) (s : string) : string :=
  match n, s with
  | O, _ => s
  | S n', String _ s' => slice_from n' s'
  | S _, EmptyString => EmptyString
  end.

(** [needle in haystack] on strings *)
Fixpoint contains (haystack needle : string) : bool :=
  String.prefix needle haystack
  || match haystack with
     | String _ rest => contains rest needle
     | EmptyString => false
     end.

(** The double-quote character, for messages that quote a value. *)
Definition dq : string := String (Ascii.Ascii false true false false false true false false) EmptyString.

End Py.

Export Py.

(** The monad is used through stdpp's [x ← m; k] and [m ;; k]. *)
#[global] Instance M_ret : MRet M := @ret.
#[global] Instance M_bind : MBind M := λ A B k m, bind m k.

(** ** [ordway/session.py] *)

(** Modelled from the spec: [session_factory] of [ordway/session.py], which
    is not under src/.  Section 4.1: given [None] it constructs and returns
    a new default session with empty default headers and proxies; given a
    session it returns that very session (adoption, not copying); it has no
    error conditions. *)
Definition session_factory (session : option sref) : M sref :=
  match session with
  | None => new_session
  | Some s => mret s
  end.

(** ** [ordway/client.py] *)

Module OrdwayClient.
Section Class.

(** [from .consts import SUPPORTED_API_VERSIONS]: [ordway/consts.py] is not
    under src/, so the constant is a parameter of the class. *)
Variable SUPPORTED_API_VERSIONS : list string.

(** [self.session], which [__init__] sets to a session before its first
    use; on anything else the attribute access that follows would fail. *)
Definition self_session (self : oref) : M sref :=
  v ← getattr self "session";
  match v with
  | VSession r => mret r
  | _ => raise (AttributeError "headers")
  end.

(** The [api_version] property, getter: [return self._api_version].
    The setter below is the only writer of [_api_version] and stores a
    string. *)
Definition api_version (self : oref) : M string :=
  v ← getattr self "_api_version";
  match v with
  | VStr s => mret s
  | _ => raise (TypeError "_api_version is not a str")
  end.

Definition _verify_api_version (self : oref) : M unit :=
  version ← api_version self;
  if decide (version ∈ SUPPORTED_API_VERSIONS) then mret tt
  else raise (OrdwayClientException
                ("OrdwayClient does not currently support the API version "
                 +:+ dq +:+ "v" +:+ version +:+ dq +:+ ".")).

(** The [api_version] property, setter. *)
Definition api_version_setter (self : oref) (api_version : string) : M unit :=
  let api_version :=
    if startswith api_version "v" then slice_from 1 api_version else api_version in
  setattr self "_api_version" (VStr api_version);;
  _verify_api_version self.

Definition optional_dict (d : option (gmap string string)) : value :=
  match d with
  | Some m => VDict m
  | None => VNone
  end.

Definition __init__ (self : oref) (email api_key company user_token : string)
    (api_version : string) (sandbox : bool)
    (proxies headers : option (gmap string string)) (session : option sref) : M unit :=
  setattr self "email" (VStr email);;
  setattr self "api_key" (VStr api_key);;
  setattr self "company" (VStr company);;
  setattr self "user_token" (VStr user_token);;

  s ← session_factory session;
  setattr self "session" (VSession s);;
  setattr self "headers" (optional_dict headers);;
  setattr self "proxies" (optional_dict proxies);;

  match headers with
  | Some h => s ← self_session self; session_headers_update s h
  | None => mret tt
  end;;
  match proxies with
  | Some p => s ← self_session self; session_proxies_update s p
  | None => mret tt
  end;;

  api_version_setter self api_version;;

  setattr self "products" (VInterface "Products" self sandbox);;
  setattr self "customers" (VInterface "Customers" self sandbox);;
  setattr self "subscriptions" (VInterface "Subscriptions" self sandbox);;
  setattr self "invoices" (VInterface "Invoices" self sandbox);;
  setattr self "payments" (VInterface "Payments" self sandbox);;
  setattr self "credits" (VInterface "Credits" self sandbox);;
  setattr self "plans" (VInterface "Plans" self sandbox);;
  setattr self "refunds" (VInterface "Refunds" self sandbox);;
  setattr self "webhooks" (VInterface "Webhooks" self sandbox);;
  setattr self "journal_entries" (VInterface "JournalEntries" self sandbox);;
  setattr self "payment_runs" (VInterface "PaymentRuns" self sandbox);;
  setattr self "statements" (VInterface "Statements" self sandbox);;
  setattr self "coupons" (VInterface "Coupons" self sandbox);;
  setattr self "orders" (VInterface "Orders" self sandbox);;
  setattr self "usages" (VInterface "Usages" self sandbox);;
  setattr self "billing_runs" (VInterface "BillingRuns" self sandbox);;
  setattr self "revenue_schedules" (VInterface "RevenueSchedules" self sandbox);;
  setattr self "billing_schedules" (VInterface "BillingSchedules" self sandbox);;
  setattr self "revenue_rules" (VInterface "RevenueRules" self sandbox);;
  setattr self "chart_of_accounts" (VInterface "ChartOfAccounts" self sandbox).

(** [OrdwayClient(...)]: allocate the instance, run [__init__] on it, hand
    it to the caller.  When [__init__] raises, the caller gets no
    reference; the instance stays in the heap as [__init__] left it. *)
Definition construct (email api_key company user_token : string)
    (api_version : string) (sandbox : bool)
    (proxies headers : option (gmap string string)) (session : option sref) : M oref :=
  self ← new_object;
  __init__ self email api_key company user_token api_version sandbox
           proxies headers session;;
  mret self.

Definition __enter__ (self : oref) : M oref := mret self.

Definition __exit__ (self : oref) : M unit :=
  s ← self_session self;
  session_close s.

(** [with client as c: body].  [__exit__] runs when the body returns and
    when it raises; it returns [None], so an exception of the body
    propagates. *)
Definition with_statement {A} (client : oref) (body : oref → M A) : M A :=
  c ← __enter__ client;
  ((λ w, match body c w with
         | (w', r) =>
             match __exit__ client w' with
             | (w'', Ok _) => (w'', r)
             | (w'', Raise e) => (w'', Raise e)
             end
         end) : M A).

Definition err_message : string :=
  "Cannot instantiate `OrdwayClient` with `.from_env`."
  +:+ "Must set all of the following env vars: `ORDWAY_EMAIL`, `ORDWAY_API_KEY`,"
  +:+ "`ORDWAY_COMPANY`, and `ORDWAY_USER_TOKEN`.".

Definition debug_format : string :=
  "Instantiating client from environment with email " +:+ dq +:+ "%s" +:+ dq
  +:+ " and company " +:+ dq +:+ "%s" +:+ dq +:+ ".".

(** [cls] called with the keyword dictionary [env_vars], as [from_env]
    does on its last line: the keys of [env_vars] are
    parameter names of [__init__], each bound to its parameter; a parameter
    without a key takes its default, a required one without a key is a
    [TypeError]. *)
Definition construct_kwargs (kwargs : gmap string string) : M oref :=
  match kwargs !! "email", kwargs !! "api_key",
        kwargs !! "company", kwargs !! "user_token" with
  | Some email, Some api_key, Some company, Some user_token =>
      construct email api_key company user_token
                (default "1" (kwargs !! "api_version")) false None None None
  | _, _, _, _ => raise (TypeError "__init__() missing required positional arguments")
  end.

(** [from_env], on the process environment [environ]. *)
Definition from_env (environ : gmap string string) : M oref :=
  env_vars ←
    try_except
      (email ← getitem environ "ORDWAY_EMAIL";
       api_key ← getitem environ "ORDWAY_API_KEY";
       company ← getitem environ "ORDWAY_COMPANY";
       user_token ← getitem environ "ORDWAY_USER_TOKEN";
       let env_vars : gmap string string :=
         <["user_token" := user_token]>
           (<["company" := company]>
              (<["api_key" := api_key]> (<["email" := email]> ∅))) in
       a1 ← getitem env_vars "email";
       a2 ← getitem env_vars "company";
       logger_debug debug_format [a1; a2];;
       mret env_vars)
      (λ err,
         match err with
         | KeyError _ =>
             Some (logger_error err_message;;
                   raise (OrdwayClientException err_message))
         | _ => None
         end);
  let api_version := environ !! "ORDWAY_API_VERSION" in
  let env_vars :=
    match api_version with
    | Some v => <["api_version" := v]> env_vars
    | None => env_vars
    end in
  construct_kwargs env_vars.

(** *** Vocabulary of the specification *)

(** The prefix-stripped form of a version string, in the spec's words:
    a single leading ["v"] removed if present. *)
Definition normalized (version : string) : string :=
  match version with
  | String c rest => if Ascii.eqb c "v"%char then rest else version
  | EmptyString => EmptyString
  end.

(** The message of the configuration error for an unsupported version. *)
Definition unsupported_message (version : string) : string :=
  "OrdwayClient does not currently support the API version "
  +:+ dq +:+ "v" +:+ version +:+ dq +:+ ".".

(** The resource interfaces assigned at the end of [__init__], in source
    order: attribute name and class of the [api] package. *)
Definition interfaces : list (string * string) :=
  [ ("products", "Products"); ("customers", "Customers");
    ("subscriptions", "Subscriptions"); ("invoices", "Invoices");
    ("payments", "Payments"); ("credits", "Credits"); ("plans", "Plans");
    ("refunds", "Refunds"); ("webhooks", "Webhooks");
    ("journal_entries", "JournalEntries"); ("payment_runs", "PaymentRuns");
    ("statements", "Statements"); ("coupons", "Coupons"); ("orders", "Orders");
    ("usages", "Usages"); ("billing_runs", "BillingRuns");
    ("revenue_schedules", "RevenueSchedules");
    ("billing_schedules", "BillingSchedules");
    ("revenue_rules", "RevenueRules");
    ("chart_of_accounts", "ChartOfAccounts") ].

(** The environment variables [from_env] requires. *)
Definition required_env_vars : list string :=
  ["ORDWAY_EMAIL"; "ORDWAY_API_KEY"; "ORDWAY_COMPANY"; "ORDWAY_USER_TOKEN"].

(** Sample data: a supported set holding the default version, an empty
    world, a complete environment, and a world with one session of the
    caller's that already has a default header. *)
Definition supported_example : list string := ["1"].

Definition w_empty : World := mkWorld [] [] [].

Definition environ_example : gmap string string :=
  <["ORDWAY_EMAIL" := "a@b.com"]>
    (<["ORDWAY_API_KEY" := "k"]>
       (<["ORDWAY_COMPANY" := "acme"]> (<["ORDWAY_USER_TOKEN" := "t"]> ∅))).

Definition session_example : Session :=
  mkSession (<["User-Agent" := "python-requests"]> ∅) ∅ 0.

Definition w_session : World := mkWorld [] [session_example] [].

(** No attribute of the object is a resource interface. *)
Definition no_interface (o : gmap string value) : Prop :=
  ∀ name kind client sandbox, o !! name ≠ Some (VInterface kind client sandbox).

Definition add_interface (self : oref) (sandbox : bool)
    (o : gmap string value) (i : string * string) : gmap string value :=
  <[i.1 := VInterface i.2 self sandbox]> o.

(** The attributes [__init__] has stored when it reaches the interfaces. *)
Definition configured (o : gmap string value)
    (email api_key company user_token version : string)
    (proxies headers : option (gmap string string)) (s : sref) : gmap string value :=
  <["_api_version" := VStr version]>
    (<["proxies" := optional_dict proxies]>
       (<["headers" := optional_dict headers]>
          (<["session" := VSession s]>
             (<["user_token" := VStr user_token]>
                (<["company" := VStr company]>
                   (<["api_key" := VStr api_key]>
                      (<["email" := VStr email]> o))))))).

(** A session after [update] with each mapping that is given. *)
Definition merged (d : gmap string string) (other : option (gmap string string)) :
    gmap string string :=
  match other with
  | Some m => m ∪ d
  | None => d
  end.

Definition session_after (proxies headers : option (gmap string string))
    (s : Session) : Session :=
  mkSession (merged (Py.headers s) headers) (merged (Py.proxies s) proxies)
            (close_calls s).

(** *** Running the code *)

Lemma startswith_v (version : string) :
  (if startswith version "v" then slice_from 1 version else version)
  = normalized version.
Proof.
  destruct version as [|c rest]; [done|].
  rw /startswith /normalized.
  change (String.prefix "v" (String c rest))
    with (if Ascii.ascii_dec "v" c then String.prefix EmptyString rest else false).
  destruct (Ascii.ascii_dec "v" c) as [<-|Hne].
  - by destruct rest.
  - destruct (Ascii.eqb_spec c "v") as [->|_]; done.
Qed.

Lemma alter_at {A} (f : A → A) (l : list A) i x :
  l !! i = Some x → alter f i l = <[i := f x]> l.
Proof.
  revert i. induction l as [|y l IH]; intros [|i] H; simplify_eq/=; [done|].
  f_equal. by apply IH.
Qed.

Lemma api_version_setter_run w self o version :
  objects w !! self = Some o →
  api_version_setter self version w =
    (mkWorld (<[self := <["_api_version" := VStr (normalized version)]> o]> (objects w))
             (sessions w) (log w),
     if decide (normalized version ∈ SUPPORTED_API_VERSIONS) then Ok tt
     else Raise (OrdwayClientException (unsupported_message (normalized version)))).
Proof.
  intros Ho. rw /api_version_setter startswith_v.
  rw /_verify_api_version /api_version /getattr /setattr /mbind /M_bind /bind /=.
  rw list_lookup_alter_eq Ho /= lookup_insert_eq /=.
  rw (alter_at _ _ _ _ Ho).
  by case_decide.
Qed.

Lemma session_after_alter proxies headers (r : sref) (l : list Session) :
  match proxies with
  | Some p =>
      alter (λ s, mkSession (Py.headers s) (dict_update (Py.proxies s) p) (close_calls s)) r
            match headers with
            | Some h =>
                alter (λ s, mkSession (dict_update (Py.headers s) h) (Py.proxies s)
                                      (close_calls s)) r l
            | None => l
            end
  | None =>
      match headers with
      | Some h =>
          alter (λ s, mkSession (dict_update (Py.headers s) h) (Py.proxies s)
                                (close_calls s)) r l
      | None => l
      end
  end
  = alter (session_after proxies headers) r l.
Proof.
  destruct proxies, headers; rw ?list_alter_alter_eq;
    try (apply list_alter_ext; [by intros []|done]).
  symmetry. apply list_alter_id. by intros [].
Qed.

Lemma bind_run {A B} (m : M A) (k : A → M B) w :
  (m ≫= k) w =
    match m w with
    | (w', Ok a) => k a w'
    | (w', Raise e) => (w', Raise e)
    end.
Proof. done. Qed.

(** Steps on a world whose object [self] is known: the heap is kept in
    the form [<[self := o]> objs]. *)
Section Steps.
Context (self : oref) (objs : list (gmap string value)).
Context (Hself : self < length objs).

Lemma setattr_then {B} o name v (k : M B) ss lg :
  (setattr self name v;; k) (mkWorld (<[self := o]> objs) ss lg) =
    k (mkWorld (<[self := <[name := v]> o]> objs) ss lg).
Proof.
  rw bind_run /setattr /=. f_equal. f_equal.
  rw (alter_at _ _ _ o) ?list_insert_insert_eq //.
  by apply list_lookup_insert_eq.
Qed.

Lemma setattr_last o name v ss lg :
  setattr self name v (mkWorld (<[self := o]> objs) ss lg) =
    (mkWorld (<[self := <[name := v]> o]> objs) ss lg, Ok tt).
Proof.
  rw /setattr /=. do 2 f_equal.
  rw (alter_at _ _ _ o) ?list_insert_insert_eq //.
  by apply list_lookup_insert_eq.
Qed.

Lemma self_session_then {B} o r (k : sref → M B) ss lg :
  o !! "session" = Some (VSession r) →
  (self_session self ≫= k) (mkWorld (<[self := o]> objs) ss lg) =
    k r (mkWorld (<[self := o]> objs) ss lg).
Proof.
  intros Hs. rw bind_run /self_session bind_run /getattr /=.
  by rw list_lookup_insert_eq //= Hs.
Qed.

Lemma api_version_setter_then {B} o version (k : M B) ss lg :
  (api_version_setter self version;; k) (mkWorld (<[self := o]> objs) ss lg) =
    let w' := mkWorld (<[self := <["_api_version" := VStr (normalized version)]> o]> objs)
                      ss lg in
    if decide (normalized version ∈ SUPPORTED_API_VERSIONS) then k w'
    else (w', Raise (OrdwayClientException (unsupported_message (normalized version)))).
Proof.
  rw bind_run (api_version_setter_run _ _ o) /=;
    last by apply list_lookup_insert_eq.
  rw list_insert_insert_eq. by case_decide.
Qed.

Lemma headers_update_then {B} o r headers (k : M B) ss lg :
  o !! "session" = Some (VSession r) →
  (match headers with
   | Some h => self_session self ≫= λ s, session_headers_update s h
   | None => mret ()
   end;; k) (mkWorld (<[self := o]> objs) ss lg) =
    k (mkWorld (<[self := o]> objs)
         match headers with
         | Some h =>
             alter (λ s, mkSession (dict_update (Py.headers s) h) (Py.proxies s)
                                   (close_calls s)) r ss
         | None => ss
         end lg).
Proof.
  intros Hs. destruct headers as [h|]; [|done].
  by rw bind_run (self_session_then _ r).
Qed.

Lemma proxies_update_then {B} o r proxies (k : M B) ss lg :
  o !! "session" = Some (VSession r) →
  (match proxies with
   | Some p => self_session self ≫= λ s, session_proxies_update s p
   | None => mret ()
   end;; k) (mkWorld (<[self := o]> objs) ss lg) =
    k (mkWorld (<[self := o]> objs)
         match proxies with
         | Some p =>
             alter (λ s, mkSession (Py.headers s) (dict_update (Py.proxies s) p)
                                   (close_calls s)) r ss
         | None => ss
         end lg).
Proof.
  intros Hs. destruct proxies as [p|]; [|done].
  by rw bind_run (self_session_then _ r).
Qed.
End Steps.

Lemma session_factory_then {B} session (k : sref → M B) objs ss lg :
  (session_factory session ≫= k) (mkWorld objs ss lg) =
    k (default (length ss) session)
      (mkWorld objs
         (match session with
          | Some _ => ss
          | None => ss ++ [mkSession ∅ ∅ 0]
          end)%list lg).
Proof. by destruct session. Qed.

Lemma __init___run w self o email api_key company user_token version sandbox
    proxies headers session :
  objects w !! self = Some o →
  let s := from_option id (length (sessions w)) session in
  let sess : list Session :=
    match session with
    | Some _ => sessions w
    | None => (sessions w ++ [mkSession ∅ ∅ 0])%list
    end in
  let o' := configured o email api_key company user_token (normalized version)
                       proxies headers s in
  __init__ self email api_key company user_token version sandbox proxies headers session w =
    if decide (normalized version ∈ SUPPORTED_API_VERSIONS) then
      (mkWorld (<[self := foldl (add_interface self sandbox) o' interfaces]> (objects w))
               (alter (session_after proxies headers) s sess) (log w), Ok tt)
    else
      (mkWorld (<[self := o']> (objects w))
               (alter (session_after proxies headers) s sess) (log w),
       Raise (OrdwayClientException (unsupported_message (normalized version)))).
Proof.
  destruct w as [objs ss lg]. intros Ho s sess o'. cbn [objects sessions log] in *.
  assert (Hself : self < length objs) by by eapply lookup_lt_Some.
  rw /__init__ -{1}(list_insert_id objs self o); [|done].
  rw !setattr_then; [|done..].
  rw session_factory_then !setattr_then; [|done..].
  rw (headers_update_then _ _ _ _ s); [|done|by simplify_map_eq].
  rw (proxies_update_then _ _ _ _ s); [|done|by simplify_map_eq].
  rw session_after_alter api_version_setter_then; [|done].
  cbv zeta. case_decide; [|done].
  rw !setattr_then; [|done..].
  by rw setattr_last.
Qed.


Lemma construct_run w email api_key company user_token version sandbox
    proxies headers session :
  let self := length (objects w) in
  let s := default (length (sessions w)) session in
  let sess : list Session :=
    match session with
    | Some _ => sessions w
    | None => (sessions w ++ [mkSession ∅ ∅ 0])%list
    end in
  let o' := configured ∅ email api_key company user_token (normalized version)
                       proxies headers s in
  construct email api_key company user_token version sandbox proxies headers session w =
    if decide (normalized version ∈ SUPPORTED_API_VERSIONS) then
      (mkWorld (objects w ++ [foldl (add_interface self sandbox) o' interfaces])
               (alter (session_after proxies headers) s sess) (log w), Ok self)
    else
      (mkWorld (objects w ++ [o'])
               (alter (session_after proxies headers) s sess) (log w),
       Raise (OrdwayClientException (unsupported_message (normalized version)))).
Proof.
  intros self s sess o'.
  rw /construct bind_run /new_object bind_run.
  rw (__init___run _ _ ∅); [|by apply list_lookup_middle].
  cbn [objects sessions log]. fold self s sess o'.
  assert (Hins : ∀ x : gmap string value,
             <[self := x]> (objects w ++ [∅]) = objects w ++ [x]).
  { intros x. rw /self insert_app_r_alt; [|done]. by rw Nat.sub_diag. }
  rw !Hins. by case_decide.
Qed.

Lemma construct_kwargs_run (kwargs : gmap string string)
    email api_key company user_token :
  kwargs !! "email" = Some email → kwargs !! "api_key" = Some api_key →
  kwargs !! "company" = Some company → kwargs !! "user_token" = Some user_token →
  construct_kwargs kwargs =
    construct email api_key company user_token
              (default "1" (kwargs !! "api_version")) false None None None.
Proof. rw /construct_kwargs. by intros -> -> -> ->. Qed.

Lemma from_env_run environ w :
  from_env environ w =
    match environ !! "ORDWAY_EMAIL", environ !! "ORDWAY_API_KEY",
          environ !! "ORDWAY_COMPANY", environ !! "ORDWAY_USER_TOKEN" with
    | Some email, Some api_key, Some company, Some user_token =>
        construct email api_key company user_token
                  (default "1" (environ !! "ORDWAY_API_VERSION")) false None None None
                  (mkWorld (objects w) (sessions w)
                           (log w ++ [mkLogRecord DEBUG debug_format [email; company]]))
    | _, _, _, _ =>
        (mkWorld (objects w) (sessions w) (log w ++ [mkLogRecord ERROR err_message []]),
         Raise (OrdwayClientException err_message))
    end.
Proof.
  rw /from_env /try_except /getitem /mbind /M_bind /bind /mret /M_ret /ret.
  destruct (environ !! "ORDWAY_EMAIL") as [email|]; [|done].
  destruct (environ !! "ORDWAY_API_KEY") as [api_key|]; [|done].
  destruct (environ !! "ORDWAY_COMPANY") as [company|]; [|done].
  destruct (environ !! "ORDWAY_USER_TOKEN") as [user_token|]; [|done].
  cbv beta iota.
  set (ev := (<["user_token" := user_token]>
                (<["company" := company]>
                   (<["api_key" := api_key]> (<["email" := email]> ∅)))
              : gmap string string)).
  assert (Hev : ev !! "email" = Some email ∧ ev !! "api_key" = Some api_key ∧
                ev !! "company" = Some company ∧ ev !! "user_token" = Some user_token
                ∧ ev !! "api_version" = None)
    by (rw /ev; by simplify_map_eq).
  destruct Hev as (He & Hk & Hc & Hu & Hv).
  rw He Hc /logger_debug.
  cbv beta iota.
  destruct (environ !! "ORDWAY_API_VERSION") as [v|].
  - rw (construct_kwargs_run _ email api_key company user_token);
      [|by rw lookup_insert_ne..].
    by rw lookup_insert_eq.
  - rw (construct_kwargs_run _ email api_key company user_token); [|done..].
    by rw Hv.
Qed.

Lemma api_version_run w self o version :
  objects w !! self = Some o → o !! "_api_version" = Some (VStr version) →
  api_version self w = (w, Ok version).
Proof.
  intros Ho Hv. by rw /api_version bind_run /getattr Ho /= Hv.
Qed.

Lemma add_interfaces_other self sandbox (l : list (string * string)) o name :
  name ∉ l.*1 → foldl (add_interface self sandbox) o l !! name = o !! name.
Proof.
  revert o. induction l as [|[attr kind] l IH]; intros o Hn; [done|].
  apply not_elem_of_cons in Hn as [Hne Hn].
  rw /= IH // /add_interface /=. by rw lookup_insert_ne.
Qed.

Lemma add_interfaces_config self sandbox o name :
  name ∈ ["email"; "api_key"; "company"; "user_token"; "session";
          "headers"; "proxies"; "_api_version"] →
  foldl (add_interface self sandbox) o interfaces !! name = o !! name.
Proof.
  intros Hin. apply add_interfaces_other. revert Hin.
  rw !elem_of_cons elem_of_nil.
  intros [->|[->|[->|[->|[->|[->|[->|[->|[]]]]]]]]];
    by apply (bool_decide_unpack _); vm_compute.
Qed.

Lemma construct_ok_inv w w1 self email api_key company user_token version sandbox
    proxies headers session :
  construct email api_key company user_token version sandbox proxies headers session w
    = (w1, Ok self) →
  normalized version ∈ SUPPORTED_API_VERSIONS ∧ self = length (objects w) ∧
  ∃ o, objects w1 = objects w ++ [o] ∧
       o = foldl (add_interface self sandbox)
             (configured ∅ email api_key company user_token (normalized version)
                         proxies headers (default (length (sessions w)) session))
             interfaces.
Proof.
  rw construct_run. case_decide as Hd; intros Heq;
    pose proof (f_equal fst Heq) as Hw; apply (f_equal snd) in Heq;
    cbn [fst snd] in *; [|discriminate].
  injection Heq as <-. subst w1. split; [done|]. split; [done|]. by eexists.
Qed.


Lemma construct_ok_getter w w1 self email api_key company user_token version sandbox
    proxies headers session :
  construct email api_key company user_token version sandbox proxies headers session w
    = (w1, Ok self) →
  normalized version ∈ SUPPORTED_API_VERSIONS ∧
  is_Some (objects w1 !! self) ∧
  api_version self w1 = (w1, Ok (normalized version)).
Proof.
  intros Hc. apply construct_ok_inv in Hc as (Hsup & -> & o & Hobjs & Ho).
  assert (Hself : objects w1 !! length (objects w) = Some o).
  { rw Hobjs. by apply list_lookup_middle. }
  split; [done|]. split; [by eexists|].
  apply (api_version_run _ _ o); [done|].
  rw Ho add_interfaces_config; [|by do 7 right; left].
  by rw /configured lookup_insert_eq.
Qed.

Lemma api_version_setter_getter w self version :
  is_Some (objects w !! self) →
  ∃ w', api_version_setter self version w =
          (w', if decide (normalized version ∈ SUPPORTED_API_VERSIONS) then Ok tt
               else Raise (OrdwayClientException
                             (unsupported_message (normalized version)))) ∧
        api_version self w' = (w', Ok (normalized version)).
Proof.
  intros [o Ho]. eexists. split; [by apply api_version_setter_run|].
  eapply api_version_run; cbn [objects].
  - apply list_lookup_insert_eq. by eapply lookup_lt_Some.
  - by rw lookup_insert_eq.
Qed.

Lemma pair_eta {A B} (p : A * B) (b : B) : p.2 = b → p = (p.1, b).
Proof. destruct p as [a b']. by intros [= ->]. Qed.

(** *** The claims *)

(** C1 (amended).  On a successfully constructed client the stored version
    is supported, and assigning an unsupported version string raises the
    configuration error; the setter has stored the stripped unsupported
    value before validating it and does not roll back, so reading
    [api_version] right after the failed assignment returns that
    unsupported value.  An assignment of a supported version succeeds and
    is what the getter returns afterwards. *)
Theorem C1_failed_assignment_is_stored
    w w1 self email api_key company user_token version sandbox proxies headers session
    (v : string) :
  construct email api_key company user_token version sandbox proxies headers session w
    = (w1, Ok self) →
  api_version self w1 = (w1, Ok (normalized version)) ∧
  normalized version ∈ SUPPORTED_API_VERSIONS ∧
  (normalized v ∉ SUPPORTED_API_VERSIONS →
   ∃ w2, api_version_setter self v w1 =
           (w2, Raise (OrdwayClientException (unsupported_message (normalized v)))) ∧
         api_version self w2 = (w2, Ok (normalized v))) ∧
  (normalized v ∈ SUPPORTED_API_VERSIONS →
   ∃ w2, api_version_setter self v w1 = (w2, Ok tt) ∧
         api_version self w2 = (w2, Ok (normalized v))).
Proof.
  intros Hc. apply construct_ok_getter in Hc as (Hsup & Hself & Hget).
  destruct (api_version_setter_getter w1 self v Hself) as (w2 & Hset & Hget2).
  split; [done|]. split; [done|].
  split; intros Hv; exists w2; (split; [|done]); rw Hset;
    by destruct (decide (normalized v ∈ SUPPORTED_API_VERSIONS)).
Qed.


(** C3.  A version string whose stripped form is not supported makes the
    constructor, and the setter on a live client, raise the configuration
    error; its message quotes the stripped version with the ["v"] put
    back in front. *)
Theorem C3_unsupported_version_raises
    w email api_key company user_token sandbox proxies headers session (v : string) :
  normalized v ∉ SUPPORTED_API_VERSIONS →
  let message :=
    "OrdwayClient does not currently support the API version "
    +:+ dq +:+ "v" +:+ normalized v +:+ dq +:+ "." in
  (∃ w', construct email api_key company user_token v sandbox proxies headers session w
           = (w', Raise (OrdwayClientException message))) ∧
  (∀ self, is_Some (objects w !! self) →
     ∃ w', api_version_setter self v w = (w', Raise (OrdwayClientException message))).
Proof.
  intros Hv message. split.
  - eexists. rw construct_run.
    by destruct (decide (normalized v ∈ SUPPORTED_API_VERSIONS)).
  - intros self Hself.
    destruct (api_version_setter_getter w self v Hself) as (w' & Hset & _).
    exists w'. rw Hset.
    by destruct (decide (normalized v ∈ SUPPORTED_API_VERSIONS)).
Qed.

(** C9.  The setter strips exactly one leading lowercase ["v"] and nothing
    else: from ["v" ++ rest] it stores [rest], an input beginning with any
    other character is stored whole; ["V1"] is stored as ["V1"] and
    ["vv1"] as ["v1"].  What is stored is what is validated: the
    assignment is rejected exactly when the stored string is not a
    supported version. *)
Theorem C9_strips_one_lowercase_v w self (c : ascii) (rest : string) :
  is_Some (objects w !! self) →
  c ≠ "v"%char →
  let outcome (stored : string) : result unit :=
    if decide (stored ∈ SUPPORTED_API_VERSIONS) then Ok tt
    else Raise (OrdwayClientException (unsupported_message stored)) in
  (∃ w', api_version_setter self ("v" +:+ rest) w = (w', outcome rest) ∧
         api_version self w' = (w', Ok rest)) ∧
  (∃ w', api_version_setter self (String c rest) w = (w', outcome (String c rest)) ∧
         api_version self w' = (w', Ok (String c rest))) ∧
  (∃ w', api_version_setter self "V1" w = (w', outcome "V1") ∧
         api_version self w' = (w', Ok "V1")) ∧
  (∃ w', api_version_setter self "vv1" w = (w', outcome "v1") ∧
         api_version self w' = (w', Ok "v1")).
Proof.
  intros Hself Hc outcome.
  assert (Hn : normalized (String c rest) = String c rest).
  { rw /normalized. by destruct (Ascii.eqb_spec c "v"). }
  split; [apply (api_version_setter_getter w self ("v" +:+ rest) Hself)|].
  split; [rw -{2 3}Hn; apply (api_version_setter_getter w self _ Hself)|].
  split; [apply (api_version_setter_getter w self "V1" Hself)|].
  apply (api_version_setter_getter w self "vv1" Hself).
Qed.

Lemma configured_no_interface email api_key company user_token version proxies headers s :
  no_interface (configured ∅ email api_key company user_token version proxies headers s).
Proof.
  intros name kind client sandbox. rw /configured.
  repeat (rw lookup_insert; case_decide; [by destruct proxies, headers|]).
  by rw lookup_empty.
Qed.

Lemma from_env_missing environ w name :
  name ∈ required_env_vars → environ !! name = None →
  from_env environ w =
    (mkWorld (objects w) (sessions w) (log w ++ [mkLogRecord ERROR err_message []]),
     Raise (OrdwayClientException err_message)).
Proof.
  intros Hin Hnone. rw from_env_run. revert Hin.
  rw /required_env_vars !elem_of_cons elem_of_nil.
  intros [->|[->|[->|[->|[]]]]]; rw Hnone;
    by repeat match goal with |- context [match ?x with _ => _ end] => destruct x end.
Qed.

(** C4.  When construction fails, the instance [__init__] was working on
    is the only new object and none of its attributes is a resource
    interface: the error was raised before the first interface was
    assigned.  When [from_env] fails, the objects it leaves behind (the
    one of a failed construction, none at all when the environment could
    not be loaded) have no resource interface either. *)
Theorem C4_no_interface_on_failure
    w environ email api_key company user_token version sandbox proxies headers session :
  (∀ w' e,
     construct email api_key company user_token version sandbox proxies headers session w
       = (w', Raise e) →
     ∃ o, objects w' = objects w ++ [o] ∧ no_interface o) ∧
  (∀ w' e,
     from_env environ w = (w', Raise e) →
     ∃ new, objects w' = objects w ++ new ∧ Forall no_interface new ∧
            ((∃ name, name ∈ required_env_vars ∧ environ !! name = None) → new = [])).
Proof.
  assert (Hc : ∀ w0 email api_key company user_token version sandbox proxies headers
                 session w' e,
             construct email api_key company user_token version sandbox proxies headers
                       session w0 = (w', Raise e) →
             ∃ o, objects w' = objects w0 ++ [o] ∧ no_interface o).
  { clear. intros w0 email api_key company user_token version sandbox proxies headers
                  session w' e.
    rw construct_run. case_decide; intros Heq;
      pose proof (f_equal fst Heq) as Hw; apply (f_equal snd) in Heq;
      cbn [fst snd] in *; [discriminate|].
    subst w'. eexists. split; [done|]. apply configured_no_interface. }
  split; [by apply Hc|].
  intros w' e Hfail.
  destruct (decide (Exists (λ name, environ !! name = None) required_env_vars))
    as [Hmiss|Hall].
  - apply Exists_exists in Hmiss as (name & Hin & Hnone).
    rw (from_env_missing _ _ name) // in Hfail.
    apply (f_equal fst) in Hfail. cbn [fst] in Hfail. subst w'.
    exists []. by rw /= app_nil_r.
  - rw from_env_run in Hfail.
    destruct (environ !! "ORDWAY_EMAIL") as [e1|] eqn:H1;
      [|exfalso; apply Hall, Exists_exists; eexists; split; [|exact H1];
        rw /required_env_vars; set_solver].
    destruct (environ !! "ORDWAY_API_KEY") as [e2|] eqn:H2;
      [|exfalso; apply Hall, Exists_exists; eexists; split; [|exact H2];
        rw /required_env_vars; set_solver].
    destruct (environ !! "ORDWAY_COMPANY") as [e3|] eqn:H3;
      [|exfalso; apply Hall, Exists_exists; eexists; split; [|exact H3];
        rw /required_env_vars; set_solver].
    destruct (environ !! "ORDWAY_USER_TOKEN") as [e4|] eqn:H4;
      [|exfalso; apply Hall, Exists_exists; eexists; split; [|exact H4];
        rw /required_env_vars; set_solver].
    apply Hc in Hfail as (o & Hobjs & Ho). cbn [objects] in Hobjs.
    exists [o]. split; [done|]. split; [by apply Forall_singleton|].
    intros (name & Hin & Hnone). exfalso. apply Hall, Exists_exists. eauto.
Qed.

(** C5.  When one of the four required variables is absent, [from_env]
    raises the configuration error whose message names all four; the
    message has been handed to [logger.error] before, and nothing else
    has happened: no object and no session has been created. *)
Theorem C5_missing_variable w environ name :
  name ∈ required_env_vars → environ !! name = None →
  let message :=
    "Cannot instantiate `OrdwayClient` with `.from_env`.Must set all of the following env vars: `ORDWAY_EMAIL`, `ORDWAY_API_KEY`,`ORDWAY_COMPANY`, and `ORDWAY_USER_TOKEN`." in
  from_env environ w =
    (mkWorld (objects w) (sessions w) (log w ++ [mkLogRecord ERROR message []]),
     Raise (OrdwayClientException message)) ∧
  Forall (λ required, contains message required = true) required_env_vars.
Proof.
  intros Hin Hnone message. split; [by apply (from_env_missing _ _ name)|].
  rw /required_env_vars. repeat constructor; by vm_compute.
Qed.

Lemma add_interfaces_lookup self sandbox (l : list (string * string)) o attr kind :
  NoDup l.*1 → (attr, kind) ∈ l →
  foldl (add_interface self sandbox) o l !! attr = Some (VInterface kind self sandbox).
Proof.
  revert o. induction l as [|[a k] l IH]; intros o Hnd Hin.
  { by apply elem_of_nil in Hin. }
  apply NoDup_cons in Hnd as [Ha Hnd].
  apply elem_of_cons in Hin as [[= -> ->]|Hin]; cbn [foldl].
  - rw add_interfaces_other; [|done]. by rw /add_interface /= lookup_insert_eq.
  - by apply IH.
Qed.

Lemma interfaces_NoDup : NoDup interfaces.*1.
Proof. apply (bool_decide_unpack _). by vm_compute. Qed.

(** C6 (amended).  With the four required variables set, [from_env] is the
    primary constructor called on their values, with [ORDWAY_API_VERSION]
    as [api_version] when it is set and the default ["1"] otherwise,
    [sandbox=False] and no proxies, headers or session, after a call of
    [logger.debug].  When that version is supported the result is a
    client holding the four values, on a fresh default session, every
    interface with the sandbox flag off; when it is not, the constructor's
    configuration error is raised. *)
Theorem C6_from_env_delegates w environ email api_key company user_token :
  environ !! "ORDWAY_EMAIL" = Some email →
  environ !! "ORDWAY_API_KEY" = Some api_key →
  environ !! "ORDWAY_COMPANY" = Some company →
  environ !! "ORDWAY_USER_TOKEN" = Some user_token →
  let version := default "1" (environ !! "ORDWAY_API_VERSION") in
  from_env environ w =
    construct email api_key company user_token version false None None None
      (mkWorld (objects w) (sessions w)
               (log w ++ [mkLogRecord DEBUG debug_format [email; company]])) ∧
  (normalized version ∈ SUPPORTED_API_VERSIONS →
   ∃ w1 self o,
     from_env environ w = (w1, Ok self) ∧
     objects w1 !! self = Some o ∧
     o !! "email" = Some (VStr email) ∧
     o !! "api_key" = Some (VStr api_key) ∧
     o !! "company" = Some (VStr company) ∧
     o !! "user_token" = Some (VStr user_token) ∧
     api_version self w1 = (w1, Ok (normalized version)) ∧
     o !! "proxies" = Some VNone ∧ o !! "headers" = Some VNone ∧
     o !! "session" = Some (VSession (length (sessions w))) ∧
     sessions w1 = sessions w ++ [mkSession ∅ ∅ 0] ∧
     ∀ attr kind, (attr, kind) ∈ interfaces →
                  o !! attr = Some (VInterface kind self false)) ∧
  (normalized version ∉ SUPPORTED_API_VERSIONS →
   ∃ w1, from_env environ w =
           (w1, Raise (OrdwayClientException (unsupported_message (normalized version))))).
Proof.
  intros He Hk Hc Hu version.
  assert (Hrun : from_env environ w =
    construct email api_key company user_token version false None None None
      (mkWorld (objects w) (sessions w)
               (log w ++ [mkLogRecord DEBUG debug_format [email; company]]))).
  { by rw from_env_run He Hk Hc Hu. }
  split; [done|]. rw Hrun construct_run. clear Hrun. cbn [objects sessions log default from_option id].
  split; intros Hv; destruct (decide (normalized version ∈ SUPPORTED_API_VERSIONS));
    try contradiction; [|by eexists].
  set (o' := configured _ _ _ _ _ _ _ _ _).
  set (o := foldl _ o' _).
  assert (Hcfg : ∀ name, name ∈ ["email"; "api_key"; "company"; "user_token"; "session";
                                  "headers"; "proxies"; "_api_version"] →
                         o !! name = o' !! name)
    by (intros; by apply add_interfaces_config).
  assert (Hsess : alter (session_after None None) (length (sessions w))
                    (sessions w ++ [mkSession ∅ ∅ 0]) = sessions w ++ [mkSession ∅ ∅ 0]).
  { apply list_alter_id. by intros []. }
  eexists _, (length (objects w)), o.
  split; [done|]. cbn [objects sessions].
  split; [by apply list_lookup_middle|].
  assert (Hlook : ∀ name x, name ∈ ["email"; "api_key"; "company"; "user_token";
                                        "session"; "headers"; "proxies"; "_api_version"] →
                            o' !! name = Some x → o !! name = Some x)
    by (intros name x Hin <-; by apply Hcfg).
  split; [by apply Hlook; [do 0 right; left|reflexivity]|].
  split; [by apply Hlook; [do 1 right; left|reflexivity]|].
  split; [by apply Hlook; [do 2 right; left|reflexivity]|].
  split; [by apply Hlook; [do 3 right; left|reflexivity]|].
  split.
  { apply (api_version_run _ _ o); [by apply list_lookup_middle|].
    by apply Hlook; [do 7 right; left|reflexivity]. }
  split; [by apply Hlook; [do 6 right; left|reflexivity]|].
  split; [by apply Hlook; [do 5 right; left|reflexivity]|].
  split; [by apply Hlook; [do 4 right; left|reflexivity]|].
  split; [done|].
  intros attr kind Hin. apply add_interfaces_lookup; [apply interfaces_NoDup|done].
Qed.

Lemma construct_sessions w email api_key company user_token version sandbox
    proxies headers session :
  sessions (construct email api_key company user_token version sandbox
                      proxies headers session w).1 =
    alter (session_after proxies headers) (default (length (sessions w)) session)
          match session with
          | Some _ => sessions w
          | None => sessions w ++ [mkSession ∅ ∅ 0]
          end.
Proof. rw construct_run. by case_decide. Qed.

Lemma construct_session_lookup w email api_key company user_token version sandbox
    proxies headers session r s0 :
  (session = Some r ∧ sessions w !! r = Some s0) ∨
  (session = None ∧ r = length (sessions w) ∧ s0 = mkSession ∅ ∅ 0) →
  sessions (construct email api_key company user_token version sandbox
                      proxies headers session w).1 !! r
    = Some (session_after proxies headers s0).
Proof.
  intros Hs. rw construct_sessions.
  destruct Hs as [[-> Hr]|(-> & -> & ->)]; cbn [default from_option id].
  - by rw list_lookup_alter_eq Hr.
  - by rw list_lookup_alter_eq list_lookup_middle.
Qed.

Lemma merged_lookup (d : gmap string string) other k :
  merged d other !! k =
    match other with
    | Some m => match m !! k with
                | Some x => Some x
                | None => d !! k
                end
    | None => d !! k
    end.
Proof.
  destruct other as [m|]; [|done]. rw /merged lookup_union.
  by destruct (m !! k), (d !! k).
Qed.

(** C7.  Whatever else construction does, the session it uses (the one
    supplied, or a fresh default one) ends with every entry of a given
    [headers] mapping in its default headers, the given value replacing
    an existing one, and with every other existing key as it was; without
    a [headers] mapping the default headers are what they were.  The same
    holds of [proxies] and the default proxies. *)
Theorem C7_headers_and_proxies_are_merged
    w email api_key company user_token version sandbox proxies headers session
    (r : sref) (s0 : Session) :
  (session = Some r ∧ sessions w !! r = Some s0) ∨
  (session = None ∧ r = length (sessions w) ∧ s0 = mkSession ∅ ∅ 0) →
  ∃ s',
    sessions (construct email api_key company user_token version sandbox
                        proxies headers session w).1 !! r = Some s' ∧
    (∀ k, Py.headers s' !! k =
            match headers with
            | Some h => match h !! k with
                        | Some x => Some x
                        | None => Py.headers s0 !! k
                        end
            | None => Py.headers s0 !! k
            end) ∧
    (∀ k, Py.proxies s' !! k =
            match proxies with
            | Some p => match p !! k with
                        | Some x => Some x
                        | None => Py.proxies s0 !! k
                        end
            | None => Py.proxies s0 !! k
            end) ∧
    (headers = None → Py.headers s' = Py.headers s0) ∧
    (proxies = None → Py.proxies s' = Py.proxies s0).
Proof.
  intros Hs. exists (session_after proxies headers s0).
  split; [by apply construct_session_lookup|].
  split; [intros k; apply merged_lookup|].
  split; [intros k; apply merged_lookup|].
  by split; intros ->.
Qed.

(** C10.  Construction merges before it validates: with a session of the
    caller, a headers mapping and an unsupported version, the constructor
    raises the configuration error and the caller's session has the
    mapping merged into its default headers (and the proxies, when given,
    into its default proxies) in the world the error leaves behind. *)
Theorem C10_failed_construction_has_merged
    w email api_key company user_token version sandbox proxies
    (h : gmap string string) (r : sref) (s0 : Session) :
  sessions w !! r = Some s0 →
  normalized version ∉ SUPPORTED_API_VERSIONS →
  ∃ w' s',
    construct email api_key company user_token version sandbox proxies (Some h) (Some r) w
      = (w', Raise (OrdwayClientException (unsupported_message (normalized version)))) ∧
    sessions w' !! r = Some s' ∧
    Py.headers s' = h ∪ Py.headers s0 ∧
    (∀ k x, h !! k = Some x → Py.headers s' !! k = Some x) ∧
    (∀ k, h !! k = None → Py.headers s' !! k = Py.headers s0 !! k) ∧
    (∀ p, proxies = Some p → Py.proxies s' = p ∪ Py.proxies s0) ∧
    (proxies = None → Py.proxies s' = Py.proxies s0).
Proof.
  intros Hr Hv.
  pose proof (construct_session_lookup w email api_key company user_token version
                sandbox proxies (Some h) (Some r) r s0 (or_introl (conj eq_refl Hr)))
    as Hlook.
  destruct (construct email api_key company user_token version sandbox proxies
                      (Some h) (Some r) w) as [w' res] eqn:Hc.
  pose proof (f_equal snd Hc) as Hres. rw construct_run in Hres.
  destruct (decide (normalized version ∈ SUPPORTED_API_VERSIONS)); [contradiction|].
  cbn [snd fst] in *. subst res.
  exists w', (session_after proxies (Some h) s0).
  split; [done|]. split; [done|]. split; [done|].
  split; [intros k x Hk; by rw /= lookup_union Hk; destruct (Py.headers s0 !! k)|].
  split; [intros k Hk; by rw /= lookup_union Hk; destruct (Py.headers s0 !! k)|].
  by split; [intros p ->|intros ->].
Qed.

Lemma __exit___run w client o r s :
  objects w !! client = Some o → o !! "session" = Some (VSession r) →
  sessions w !! r = Some s →
  __exit__ client w =
    (mkWorld (objects w)
             (<[r := mkSession (Py.headers s) (Py.proxies s) (S (close_calls s))]>
                (sessions w))
             (log w), Ok tt).
Proof.
  intros Ho Hs Hr.
  rw /__exit__ bind_run /self_session bind_run /getattr Ho /= Hs /=.
  by rw /session_close (alter_at _ _ _ _ Hr).
Qed.

(** C8.  [with client: body] closes the session of the client exactly
    once, after the body, whether the body returned or raised, and hands
    on the body's outcome; a second [__exit__] does not raise (the session
    is closed a second time).  No request need ever have been issued: the
    body is arbitrary. *)
Theorem C8_scope_closes_once {A} w client (body : oref → M A) w1 outcome o r s :
  body client w = (w1, outcome) →
  objects w1 !! client = Some o → o !! "session" = Some (VSession r) →
  sessions w1 !! r = Some s →
  let closed (n : nat) : World :=
    mkWorld (objects w1)
            (<[r := mkSession (Py.headers s) (Py.proxies s) (n + close_calls s)]>
               (sessions w1))
            (log w1) in
  with_statement client body w = (closed 1, outcome) ∧
  __exit__ client (closed 1) = (closed 2, Ok tt).
Proof.
  intros Hbody Ho Hs Hr closed. split.
  - rw /with_statement bind_run /__enter__ /= Hbody.
    by rw (__exit___run _ _ o r s).
  - rw (__exit___run _ _ o r (mkSession (Py.headers s) (Py.proxies s) (1 + close_calls s)));
      [by rw /closed /= list_insert_insert_eq|done..|].
    apply list_lookup_insert_eq. by eapply lookup_lt_Some.
Qed.

Lemma construct_ok_fresh_session w w1 self email api_key company user_token version sandbox
    proxies headers :
  construct email api_key company user_token version sandbox proxies headers None w
    = (w1, Ok self) →
  ∃ o, objects w1 !! self = Some o ∧
       o !! "session" = Some (VSession (length (sessions w))) ∧
       sessions w1 !! length (sessions w)
         = Some (session_after proxies headers (mkSession ∅ ∅ 0)).
Proof.
  intros Hc.
  pose proof (construct_session_lookup w email api_key company user_token version sandbox
                proxies headers None (length (sessions w)) (mkSession ∅ ∅ 0)
                (or_intror (conj eq_refl (conj eq_refl eq_refl)))) as Hs.
  rw Hc in Hs. cbn [fst] in Hs.
  apply construct_ok_inv in Hc as (_ & -> & o & Hobjs & Ho).
  exists o. split; [rw Hobjs; by apply list_lookup_middle|]. split; [|done].
  rw Ho add_interfaces_config; [|by do 4 right; left]. reflexivity.
Qed.

(** *** Further properties of the code *)

(** The attributes [__init__] assigns before the interfaces, in source
    order. *)
Definition config_attributes : list string :=
  ["email"; "api_key"; "company"; "user_token"; "session"; "headers"; "proxies";
   "_api_version"].

Lemma add_interfaces_dom self sandbox (l : list (string * string)) o :
  dom (foldl (add_interface self sandbox) o l) = list_to_set l.*1 ∪ dom o.
Proof.
  revert o. induction l as [|[attr kind] l IH]; intros o.
  { cbn. by rw left_id_L. }
  cbn [foldl]. rw IH /add_interface dom_insert_L. cbn.
  by rw assoc_L (comm_L _ (list_to_set l.*1)).
Qed.

Lemma configured_dom email api_key company user_token version proxies headers s :
  dom (configured ∅ email api_key company user_token version proxies headers s)
    = list_to_set config_attributes.
Proof.
  rw /configured !dom_insert_L dom_empty_L /config_attributes. cbn. set_solver.
Qed.

(** X1.  A constructed client holds the four credentials verbatim, the
    headers and proxies exactly as given ([None] included), the session it
    uses, and one interface per resource, each bound back to this very
    client with the constructor's sandbox flag; it has no other attribute. *)
Theorem X1_constructed_client_attributes
    w w1 self email api_key company user_token version sandbox proxies headers session :
  construct email api_key company user_token version sandbox proxies headers session w
    = (w1, Ok self) →
  ∃ o, objects w1 !! self = Some o ∧
       o !! "email" = Some (VStr email) ∧
       o !! "api_key" = Some (VStr api_key) ∧
       o !! "company" = Some (VStr company) ∧
       o !! "user_token" = Some (VStr user_token) ∧
       o !! "session" = Some (VSession (default (length (sessions w)) session)) ∧
       o !! "headers" = Some (optional_dict headers) ∧
       o !! "proxies" = Some (optional_dict proxies) ∧
       (∀ attr kind, (attr, kind) ∈ interfaces →
                     o !! attr = Some (VInterface kind self sandbox)) ∧
       dom o = list_to_set (config_attributes ++ interfaces.*1).
Proof.
  intros Hc. apply construct_ok_inv in Hc as (_ & -> & o & Hobjs & Ho).
  exists o. split; [rw Hobjs; by apply list_lookup_middle|].
  set (o' := configured _ _ _ _ _ _ _ _ _) in Ho.
  assert (Hlook : ∀ name x, name ∈ config_attributes → o' !! name = Some x →
                            o !! name = Some x).
  { intros name x Hin <-. rw Ho. by apply add_interfaces_config. }
  split; [by apply Hlook; [do 0 right; left|reflexivity]|].
  split; [by apply Hlook; [do 1 right; left|reflexivity]|].
  split; [by apply Hlook; [do 2 right; left|reflexivity]|].
  split; [by apply Hlook; [do 3 right; left|reflexivity]|].
  split; [by apply Hlook; [do 4 right; left|reflexivity]|].
  split; [by apply Hlook; [do 5 right; left|reflexivity]|].
  split; [by apply Hlook; [do 6 right; left|reflexivity]|].
  split.
  - intros attr kind Hin. rw Ho. apply add_interfaces_lookup; [apply interfaces_NoDup|done].
  - rw Ho add_interfaces_dom /o' configured_dom list_to_set_app_L. set_solver.
Qed.

Lemma construct_log w email api_key company user_token version sandbox
    proxies headers session :
  log (construct email api_key company user_token version sandbox
                 proxies headers session w).1 = log w.
Proof. rw construct_run. by case_decide. Qed.



(** X3.  The constructor never closes a session: every session keeps its
    count of [close] calls, and a session the constructor created itself is
    left open in the world, also when the construction fails on the
    version. *)
Theorem X3_constructor_never_closes
    w email api_key company user_token version sandbox proxies headers session :
  let w' := (construct email api_key company user_token version sandbox
                       proxies headers session w).1 in
  (∀ i s, sessions w !! i = Some s →
          ∃ s', sessions w' !! i = Some s' ∧ close_calls s' = close_calls s) ∧
  (session = None →
   ∃ s', sessions w' !! length (sessions w) = Some s' ∧ close_calls s' = 0).
Proof.
  intros w'. rw /w' construct_sessions. split.
  - intros i s Hs.
    assert (Hin : match session with
                  | Some _ => sessions w
                  | None => sessions w ++ [mkSession ∅ ∅ 0]
                  end !! i = Some s).
    { destruct session; [done|]. by apply lookup_app_l_Some. }
    destruct (decide (i = default (length (sessions w)) session)) as [->|Hne].
    + rw list_lookup_alter_eq Hin. by eexists.
    + rw list_lookup_alter_ne; [|done]. by eexists.
  - intros ->. cbn [default from_option id].
    rw list_lookup_alter_eq list_lookup_middle; [|done]. by eexists.
Qed.

(** X4.  Assigning [api_version] on a live client changes one thing only,
    the client's [_api_version]: every other attribute of the client (its
    session and its interfaces among them), every other object, every
    session and the log are as before, whether the assignment succeeds or
    raises. *)
Theorem X4_setter_frame w self o (v : string) :
  objects w !! self = Some o →
  let w' := (api_version_setter self v w).1 in
  sessions w' = sessions w ∧ log w' = log w ∧
  (∀ other, other ≠ self → objects w' !! other = objects w !! other) ∧
  ∃ o', objects w' !! self = Some o' ∧
        o' !! "_api_version" = Some (VStr (normalized v)) ∧
        ∀ name, name ≠ "_api_version" → o' !! name = o !! name.
Proof.
  intros Ho w'. rw /w' (api_version_setter_run _ _ o); [|done]. cbn [fst objects sessions log].
  split; [done|]. split; [done|].
  split; [intros other Hne; by rw list_lookup_insert_ne|].
  eexists. split; [apply list_lookup_insert_eq; by eapply lookup_lt_Some|].
  split; [by rw lookup_insert_eq|].
  intros name Hne. by rw lookup_insert_ne.
Qed.

(** X5.  The only exception the constructor and [from_env] let out is the
    configuration error: the [KeyError] of a missing variable never leaves
    [from_env], and the message is one of the two the module writes. *)
Theorem X5_only_configuration_errors
    w environ email api_key company user_token version sandbox proxies headers session :
  (∀ w' e,
     construct email api_key company user_token version sandbox proxies headers session w
       = (w', Raise e) →
     e = OrdwayClientException (unsupported_message (normalized version))) ∧
  (∀ w' e,
     from_env environ w = (w', Raise e) →
     e = OrdwayClientException err_message ∨
     e = OrdwayClientException
           (unsupported_message
              (normalized (default "1" (environ !! "ORDWAY_API_VERSION"))))).
Proof.
  assert (Hc : ∀ w0 email api_key company user_token version sandbox proxies headers
                 session w' e,
             construct email api_key company user_token version sandbox proxies headers
                       session w0 = (w', Raise e) →
             e = OrdwayClientException (unsupported_message (normalized version))).
  { clear. intros w0 email api_key company user_token version sandbox proxies headers
                  session w' e.
    rw construct_run. case_decide; intros Heq; apply (f_equal snd) in Heq;
      cbn [snd] in Heq; [discriminate|]. by injection Heq as <-. }
  split; [by apply Hc|].
  intros w' e. rw from_env_run.
  destruct (environ !! "ORDWAY_EMAIL"), (environ !! "ORDWAY_API_KEY"),
    (environ !! "ORDWAY_COMPANY"), (environ !! "ORDWAY_USER_TOKEN");
    first [ intros Heq; right; by eapply Hc
          | intros Heq; left; apply (f_equal snd) in Heq; cbn [snd] in Heq;
            by injection Heq as <- ].
Qed.

(** X6.  Every call of [from_env] makes exactly one call of the logger:
    [logger.error] with the message and no arguments when a required
    variable is missing, otherwise [logger.debug] whose arguments are the
    email and the company, in that order, also when the construction then
    fails.  The API key and the user token are never handed to the logger. *)
Theorem X6_from_env_logs_once w environ :
  ∃ record,
    log (from_env environ w).1 = log w ++ [record] ∧
    ((record = mkLogRecord ERROR err_message [] ∧
      ∃ name, name ∈ required_env_vars ∧ environ !! name = None) ∨
     (∃ email company,
        environ !! "ORDWAY_EMAIL" = Some email ∧
        environ !! "ORDWAY_COMPANY" = Some company ∧
        is_Some (environ !! "ORDWAY_API_KEY") ∧
        is_Some (environ !! "ORDWAY_USER_TOKEN") ∧
        record = mkLogRecord DEBUG debug_format [email; company])).
Proof.
  rw from_env_run.
  destruct (environ !! "ORDWAY_EMAIL") as [email|] eqn:H1;
    [|eexists; split; [reflexivity|]; left; split; [done|];
      exists "ORDWAY_EMAIL"; split; [by do 0 right; left|done]].
  destruct (environ !! "ORDWAY_API_KEY") as [api_key|] eqn:H2;
    [|eexists; split; [reflexivity|]; left; split; [done|];
      exists "ORDWAY_API_KEY"; split; [by do 1 right; left|done]].
  destruct (environ !! "ORDWAY_COMPANY") as [company|] eqn:H3;
    [|eexists; split; [reflexivity|]; left; split; [done|];
      exists "ORDWAY_COMPANY"; split; [by do 2 right; left|done]].
  destruct (environ !! "ORDWAY_USER_TOKEN") as [user_token|] eqn:H4;
    [|eexists; split; [reflexivity|]; left; split; [done|];
      exists "ORDWAY_USER_TOKEN"; split; [by do 3 right; left|done]].
  rw construct_log. cbn [log]. eexists. split; [reflexivity|].
  right. exists email, company. by repeat split.
Qed.

(** X7.  [from_env] reads five variables and nothing else: on two
    environments that agree on the four required variables and on
    [ORDWAY_API_VERSION] it does the same. *)
Theorem X7_from_env_reads_five_variables w (environ1 environ2 : gmap string string) :
  (∀ name, name ∈ required_env_vars ++ ["ORDWAY_API_VERSION"] →
           environ1 !! name = environ2 !! name) →
  from_env environ1 w = from_env environ2 w.
Proof.
  intros Hagree. rw !from_env_run.
  rw (Hagree "ORDWAY_EMAIL"); [|by do 0 right; left].
  rw (Hagree "ORDWAY_API_KEY"); [|by do 1 right; left].
  rw (Hagree "ORDWAY_COMPANY"); [|by do 2 right; left].
  rw (Hagree "ORDWAY_USER_TOKEN"); [|by do 3 right; left].
  rw (Hagree "ORDWAY_API_VERSION"); [|by do 4 right; left]. done.
Qed.

Lemma construct_ok_object w w1 self email api_key company user_token version sandbox
    proxies headers session :
  construct email api_key company user_token version sandbox proxies headers session w
    = (w1, Ok self) →
  self = length (objects w) ∧
  ∃ o, objects w1 = objects w ++ [o] ∧
       o !! "session" = Some (VSession (default (length (sessions w)) session)) ∧
       o !! "_api_version" = Some (VStr (normalized version)).
Proof.
  intros Hc. apply construct_ok_inv in Hc as (_ & -> & o & Hobjs & Ho).
  split; [done|]. exists o. split; [done|].
  rw Ho. split; (rw add_interfaces_config; [reflexivity|]);
    [by do 4 right; left|by do 7 right; left].
Qed.

(** X8.  A session supplied by the caller is shared, not copied: two
    clients built on it are distinct objects holding the same session, the
    mappings of both constructions accumulate in its defaults (the later
    construction wins on a common key), and leaving the scope of the first
    client closes the session the second one is still using. *)
Theorem X8_clients_share_a_supplied_session
    w w1 w2 c1 c2 (r : sref) (s0 : Session)
    email1 api_key1 company1 user_token1 version1 sandbox1 proxies1 headers1
    email2 api_key2 company2 user_token2 version2 sandbox2 proxies2 headers2 :
  sessions w !! r = Some s0 →
  construct email1 api_key1 company1 user_token1 version1 sandbox1 proxies1 headers1
            (Some r) w = (w1, Ok c1) →
  construct email2 api_key2 company2 user_token2 version2 sandbox2 proxies2 headers2
            (Some r) w1 = (w2, Ok c2) →
  c1 ≠ c2 ∧
  (∃ o1 o2, objects w2 !! c1 = Some o1 ∧ objects w2 !! c2 = Some o2 ∧
            o1 !! "session" = Some (VSession r) ∧ o2 !! "session" = Some (VSession r)) ∧
  (∃ s2, sessions w2 !! r = Some s2 ∧
         Py.headers s2 = merged (merged (Py.headers s0) headers1) headers2 ∧
         Py.proxies s2 = merged (merged (Py.proxies s0) proxies1) proxies2 ∧
         close_calls s2 = close_calls s0) ∧
  ∃ w3 s3, __exit__ c1 w2 = (w3, Ok tt) ∧
           sessions w3 !! r = Some s3 ∧
           close_calls s3 = S (close_calls s0) ∧
           objects w3 = objects w2.
Proof.
  intros Hr Hc1 Hc2.
  pose proof (construct_session_lookup w email1 api_key1 company1 user_token1 version1
                sandbox1 proxies1 headers1 (Some r) r s0 (or_introl (conj eq_refl Hr)))
    as Hs1.
  rw Hc1 in Hs1. cbn [fst] in Hs1.
  pose proof (construct_session_lookup w1 email2 api_key2 company2 user_token2 version2
                sandbox2 proxies2 headers2 (Some r) r _ (or_introl (conj eq_refl Hs1)))
    as Hs2.
  rw Hc2 in Hs2. cbn [fst] in Hs2.
  apply construct_ok_object in Hc1 as (-> & o1 & Hobjs1 & Ho1s & _).
  apply construct_ok_object in Hc2 as (-> & o2 & Hobjs2 & Ho2s & _).
  cbn [default from_option id] in Ho1s, Ho2s.
  assert (H1 : objects w2 !! length (objects w) = Some o1).
  { rw Hobjs2 Hobjs1. apply lookup_app_l_Some. by apply list_lookup_middle. }
  assert (H2 : objects w2 !! length (objects w1) = Some o2).
  { rw Hobjs2. by apply list_lookup_middle. }
  split; [rw Hobjs1 length_app /=; lia|].
  split; [by exists o1, o2|].
  split; [by eexists|].
  eexists _, _. split; [by apply (__exit___run _ _ o1 r _ H1 Ho1s Hs2)|].
  cbn [sessions objects].
  split; [apply list_lookup_insert_eq; by eapply lookup_lt_Some|].
  split; reflexivity.
Qed.

(** X9.  Assigning back the version a constructed client reports is a
    no-op that succeeds, provided that version does not begin with ["v"]
    (the setter would strip the letter again). *)
Theorem X9_reassigning_current_version
    w w1 self email api_key company user_token version sandbox proxies headers session :
  construct email api_key company user_token version sandbox proxies headers session w
    = (w1, Ok self) →
  startswith (normalized version) "v" = false →
  api_version self w1 = (w1, Ok (normalized version)) ∧
  api_version_setter self (normalized version) w1 = (w1, Ok tt).
Proof.
  intros Hc Hs.
  pose proof (construct_ok_getter _ _ _ _ _ _ _ _ _ _ _ _ Hc) as (Hsup & _ & Hget).
  apply construct_ok_object in Hc as (-> & o & Hobjs & _ & Hv).
  assert (Ho : objects w1 !! length (objects w) = Some o).
  { rw Hobjs. by apply list_lookup_middle. }
  assert (Hn : normalized (normalized version) = normalized version).
  { by rw -(startswith_v (normalized version)) Hs. }
  split; [done|].
  rw (api_version_setter_run _ _ o); [|done]. rw Hn.
  destruct (decide (normalized version ∈ SUPPORTED_API_VERSIONS)); [|contradiction].
  rw insert_id; [|done]. rw list_insert_id; [|done]. by destruct w1.
Qed.

Lemma construct_fresh_sessions w email api_key company user_token version sandbox
    proxies headers :
  sessions (construct email api_key company user_token version sandbox
                      proxies headers None w).1
    = sessions w ++ [session_after proxies headers (mkSession ∅ ∅ 0)].
Proof.
  rw construct_sessions. cbn [default from_option id].
  rw (alter_at _ _ _ (mkSession ∅ ∅ 0)); [|by apply list_lookup_middle].
  rw insert_app_r_alt; [|done]. by rw Nat.sub_diag.
Qed.

(** X10.  Clients built without a session do not share one: each
    construction creates its own session, and leaving the scope of the
    first client closes its session only; the session of the second client
    stays open. *)
Theorem X10_default_sessions_are_separate
    w w1 w2 c1 c2
    email1 api_key1 company1 user_token1 version1 sandbox1 proxies1 headers1
    email2 api_key2 company2 user_token2 version2 sandbox2 proxies2 headers2 :
  construct email1 api_key1 company1 user_token1 version1 sandbox1 proxies1 headers1
            None w = (w1, Ok c1) →
  construct email2 api_key2 company2 user_token2 version2 sandbox2 proxies2 headers2
            None w1 = (w2, Ok c2) →
  ∃ o1 o2 r1 r2,
    objects w2 !! c1 = Some o1 ∧ objects w2 !! c2 = Some o2 ∧
    o1 !! "session" = Some (VSession r1) ∧ o2 !! "session" = Some (VSession r2) ∧
    r1 ≠ r2 ∧
    ∃ w3, __exit__ c1 w2 = (w3, Ok tt) ∧
          close_calls <$> sessions w3 !! r1 = Some 1 ∧
          close_calls <$> sessions w3 !! r2 = Some 0.
Proof.
  intros Hc1 Hc2.
  pose proof (construct_fresh_sessions w email1 api_key1 company1 user_token1 version1
                sandbox1 proxies1 headers1) as Hs1.
  rw Hc1 in Hs1. cbn [fst] in Hs1.
  pose proof (construct_fresh_sessions w1 email2 api_key2 company2 user_token2 version2
                sandbox2 proxies2 headers2) as Hs2.
  rw Hc2 in Hs2. cbn [fst] in Hs2.
  apply construct_ok_object in Hc1 as (-> & o1 & Hobjs1 & Ho1s & _).
  apply construct_ok_object in Hc2 as (-> & o2 & Hobjs2 & Ho2s & _).
  cbn [default from_option id] in Ho1s, Ho2s.
  assert (Hlen : length (sessions w1) = S (length (sessions w))).
  { rw Hs1 length_app /=. lia. }
  assert (Hr1 : sessions w2 !! length (sessions w)
                = Some (session_after proxies1 headers1 (mkSession ∅ ∅ 0))).
  { rw Hs2 Hs1. apply lookup_app_l_Some. by apply list_lookup_middle. }
  assert (Hr2 : sessions w2 !! length (sessions w1)
                = Some (session_after proxies2 headers2 (mkSession ∅ ∅ 0))).
  { rw Hs2. by apply list_lookup_middle. }
  exists o1, o2, (length (sessions w)), (length (sessions w1)).
  split; [rw Hobjs2 Hobjs1; apply lookup_app_l_Some; by apply list_lookup_middle|].
  split; [rw Hobjs2; by apply list_lookup_middle|].
  split; [done|]. split; [done|]. split; [lia|].
  eexists. split.
  { eapply (__exit___run _ _ o1); [|exact Ho1s|exact Hr1].
    rw Hobjs2 Hobjs1. apply lookup_app_l_Some. by apply list_lookup_middle. }
  cbn [sessions]. split.
  - rw list_lookup_insert_eq; [reflexivity|]. by eapply lookup_lt_Some.
  - rw list_lookup_insert_ne; [|lia]. by rw Hr2.
Qed.

End Class.

(** ** The claims on sample data *)

Ltac run := by vm_compute.

Ltac unsupported :=
  rw /supported_example not_elem_of_cons; split; [done|apply not_elem_of_nil].

(** C1, witness: a client built with ["v1"], then [api_version = "2"]. *)
Lemma C1_failed_assignment_witness :
  let w1 := (construct supported_example "a@b.com" "k" "acme" "t" "v1" false
                       None None None w_empty).1 in
  (construct supported_example "a@b.com" "k" "acme" "t" "v1" false None None None w_empty
    = (w1, Ok 0)) ∧
  (normalized "2" ∉ supported_example) ∧
  ∃ w2, api_version_setter supported_example 0 "2" w1 =
          (w2, Raise (OrdwayClientException (unsupported_message "2"))) ∧
        api_version 0 w2 = (w2, Ok "2").
Proof.
  cbv zeta.
  assert (Hc : construct supported_example "a@b.com" "k" "acme" "t" "v1" false
                         None None None w_empty
               = ((construct supported_example "a@b.com" "k" "acme" "t" "v1" false
                             None None None w_empty).1, Ok 0)).
  { refine (pair_eta _ _ _). run. }
  assert (Hn : normalized "2" ∉ supported_example) by unsupported.
  split; [exact Hc|]. split; [exact Hn|].
  destruct (C1_failed_assignment_is_stored supported_example _ _ _ _ _ _ _ _ _ _ _ _ "2" Hc)
    as (_ & _ & Hfail & _).
  exact (Hfail Hn).
Defined.

(** C1, counterexample: after the failed assignment of ["2"] the getter
    returns ["2"], not the version ["1"] the client had. *)
Lemma C1_counterexample :
  let w1 := (construct supported_example "a@b.com" "k" "acme" "t" "1" false
                       None None None w_empty).1 in
  let w2 := (api_version_setter supported_example 0 "2" w1).1 in
  (construct supported_example "a@b.com" "k" "acme" "t" "1" false
             None None None w_empty).2 = Ok 0 ∧
  (api_version 0 w1).2 = Ok "1" ∧
  ("2" ∉ supported_example) ∧
  (api_version_setter supported_example 0 "2" w1).2 =
    Raise (OrdwayClientException (unsupported_message "2")) ∧
  (api_version 0 w2).2 = Ok "2" ∧
  (api_version 0 w2).2 ≠ Ok "1".
Proof.
  intros w1 w2. split; [run|]. split; [run|]. split; [unsupported|].
  split; [run|]. split; [run|]. by vm_compute.
Qed.



(** C3, witness: the unsupported version ["v2"], given to the constructor
    and assigned on a client built with ["1"]. *)
Lemma C3_unsupported_version_witness :
  let w1 := (construct supported_example "a@b.com" "k" "acme" "t" "1" false
                       None None None w_empty).1 in
  (normalized "v2" ∉ supported_example) ∧
  is_Some (objects w1 !! 0) ∧
  (∃ w', construct supported_example "a@b.com" "k" "acme" "t" "v2" false
                   None None None w_empty
           = (w', Raise (OrdwayClientException (unsupported_message "2")))) ∧
  (∃ w', api_version_setter supported_example 0 "v2" w1
           = (w', Raise (OrdwayClientException (unsupported_message "2")))).
Proof.
  cbv zeta.
  assert (Hn : normalized "v2" ∉ supported_example) by unsupported.
  assert (Hself : is_Some (objects (construct supported_example "a@b.com" "k" "acme" "t" "1"
                                              false None None None w_empty).1 !! 0)).
  { refine (proj1 (proj2 (construct_ok_getter supported_example w_empty _ 0 "a@b.com" "k"
                            "acme" "t" "1" false None None None (pair_eta _ _ _)))).
    run. }
  split; [exact Hn|]. split; [exact Hself|].
  split.
  - exact (proj1 (C3_unsupported_version_raises supported_example w_empty "a@b.com" "k"
                    "acme" "t" false None None None "v2" Hn)).
  - exact (proj2 (C3_unsupported_version_raises supported_example _ "a@b.com" "k"
                    "acme" "t" false None None None "v2" Hn) 0 Hself).
Defined.

(** C4, witness: a construction with the unsupported version ["2"], and
    [from_env] on an empty environment. *)
Lemma C4_no_interface_witness :
  (∃ o, objects (construct supported_example "a@b.com" "k" "acme" "t" "2" true
                           None None None w_empty).1 = objects w_empty ++ [o] ∧
        no_interface o) ∧
  (∃ new, objects (from_env supported_example ∅ w_empty).1 = objects w_empty ++ new ∧
          Forall no_interface new ∧ new = []).
Proof.
  pose proof (C4_no_interface_on_failure supported_example w_empty ∅ "a@b.com" "k" "acme"
                "t" "2" true None None None) as [Hc Hf].
  split.
  - refine (Hc _ (OrdwayClientException (unsupported_message "2")) (pair_eta _ _ _)). run.
  - assert (Hfail : from_env supported_example ∅ w_empty
                    = ((from_env supported_example ∅ w_empty).1,
                       Raise (OrdwayClientException err_message))).
    { refine (pair_eta _ _ _). run. }
    destruct (Hf _ _ Hfail) as (new & Hobjs & Hno & Hnil).
    exists new. split; [exact Hobjs|]. split; [exact Hno|].
    apply Hnil. exists "ORDWAY_EMAIL". split; [by left|done].
Defined.

(** C5, witness: the sample environment without [ORDWAY_COMPANY]. *)
Lemma C5_missing_variable_witness :
  ("ORDWAY_COMPANY" ∈ required_env_vars) ∧
  delete "ORDWAY_COMPANY" environ_example !! "ORDWAY_COMPANY" = None ∧
  from_env supported_example (delete "ORDWAY_COMPANY" environ_example) w_empty =
    (mkWorld [] [] [mkLogRecord ERROR err_message []],
     Raise (OrdwayClientException err_message)) ∧
  Forall (λ required, contains err_message required = true) required_env_vars.
Proof.
  assert (Hin : "ORDWAY_COMPANY" ∈ required_env_vars) by (by do 2 right; left).
  assert (Hnone : delete "ORDWAY_COMPANY" environ_example !! "ORDWAY_COMPANY" = None)
    by apply lookup_delete_eq.
  split; [exact Hin|]. split; [exact Hnone|].
  exact (C5_missing_variable supported_example w_empty _ _ Hin Hnone).
Defined.

(** C6, counterexample: all four required variables are set and
    [ORDWAY_API_VERSION] is ["2"]; [from_env] returns no client. *)
Lemma C6_counterexample :
  let environ := <["ORDWAY_API_VERSION" := "2"]> environ_example in
  environ !! "ORDWAY_EMAIL" = Some "a@b.com" ∧
  environ !! "ORDWAY_API_KEY" = Some "k" ∧
  environ !! "ORDWAY_COMPANY" = Some "acme" ∧
  environ !! "ORDWAY_USER_TOKEN" = Some "t" ∧
  (from_env supported_example environ w_empty).2
    = Raise (OrdwayClientException (unsupported_message "2")).
Proof. cbv zeta. repeat split; run. Qed.

(** C6, witness: the sample environment with [ORDWAY_API_VERSION] ["v1"]. *)
Lemma C6_from_env_witness :
  let environ := <["ORDWAY_API_VERSION" := "v1"]> environ_example in
  environ !! "ORDWAY_EMAIL" = Some "a@b.com" ∧
  environ !! "ORDWAY_API_KEY" = Some "k" ∧
  environ !! "ORDWAY_COMPANY" = Some "acme" ∧
  environ !! "ORDWAY_USER_TOKEN" = Some "t" ∧
  ∃ w1 self o,
    from_env supported_example environ w_empty = (w1, Ok self) ∧
    objects w1 !! self = Some o ∧
    o !! "email" = Some (VStr "a@b.com") ∧
    o !! "api_key" = Some (VStr "k") ∧
    o !! "company" = Some (VStr "acme") ∧
    o !! "user_token" = Some (VStr "t") ∧
    api_version self w1 = (w1, Ok "1").
Proof.
  cbv zeta.
  assert (He : <["ORDWAY_API_VERSION" := "v1"]> environ_example !! "ORDWAY_EMAIL"
               = Some "a@b.com") by run.
  assert (Hk : <["ORDWAY_API_VERSION" := "v1"]> environ_example !! "ORDWAY_API_KEY"
               = Some "k") by run.
  assert (Hc : <["ORDWAY_API_VERSION" := "v1"]> environ_example !! "ORDWAY_COMPANY"
               = Some "acme") by run.
  assert (Hu : <["ORDWAY_API_VERSION" := "v1"]> environ_example !! "ORDWAY_USER_TOKEN"
               = Some "t") by run.
  do 4 (split; [done|]).
  destruct (C6_from_env_delegates supported_example w_empty _ _ _ _ _ He Hk Hc Hu)
    as (_ & Hok & _).
  destruct Hok as (w1 & self & o & Hrun & Ho & H1 & H2 & H3 & H4 & Hv & _).
  { vm_compute. by left. }
  exists w1, self, o. do 6 (split; [assumption|]). exact Hv.
Defined.

(** C7, witness: a header given at construction on the caller's session. *)
Lemma C7_merge_witness :
  let headers : gmap string string := <["X-Foo" := "bar"]> ∅ in
  sessions w_session !! 0 = Some session_example ∧
  ∃ s',
    sessions (construct supported_example "a@b.com" "k" "acme" "t" "1" false
                        None (Some headers) (Some 0) w_session).1 !! 0 = Some s' ∧
    Py.headers s' !! "X-Foo" = Some "bar" ∧
    Py.headers s' !! "User-Agent" = Some "python-requests" ∧
    Py.proxies s' = Py.proxies session_example.
Proof.
  cbv zeta.
  assert (Hs : sessions w_session !! 0 = Some session_example) by reflexivity.
  split; [exact Hs|].
  destruct (C7_headers_and_proxies_are_merged supported_example w_session "a@b.com" "k"
              "acme" "t" "1" false None (Some (<["X-Foo" := "bar"]> ∅)) (Some 0)
              0 session_example (or_introl (conj eq_refl Hs)))
    as (s' & Hlook & Hh & _ & _ & Hp).
  exists s'. split; [exact Hlook|].
  split; [rw Hh; run|]. split; [rw Hh; run|]. by apply Hp.
Defined.

(** C9, witness: ["V1"] and ["vv1"] assigned on a client built with ["1"]. *)
Lemma C9_strips_one_v_witness :
  let w1 := (construct supported_example "a@b.com" "k" "acme" "t" "1" false
                       None None None w_empty).1 in
  is_Some (objects w1 !! 0) ∧
  "V"%char ≠ "v"%char ∧
  (∃ w', api_version_setter supported_example 0 "V1" w1
           = (w', Raise (OrdwayClientException (unsupported_message "V1"))) ∧
         api_version 0 w' = (w', Ok "V1")) ∧
  (∃ w', api_version_setter supported_example 0 "vv1" w1
           = (w', Raise (OrdwayClientException (unsupported_message "v1"))) ∧
         api_version 0 w' = (w', Ok "v1")).
Proof.
  cbv zeta.
  assert (Hself : is_Some (objects (construct supported_example "a@b.com" "k" "acme" "t" "1"
                                              false None None None w_empty).1 !! 0)).
  { refine (proj1 (proj2 (construct_ok_getter supported_example w_empty _ 0 "a@b.com" "k"
                            "acme" "t" "1" false None None None (pair_eta _ _ _)))).
    run. }
  assert (Hc : "V"%char ≠ "v"%char) by done.
  split; [exact Hself|]. split; [exact Hc|].
  destruct (C9_strips_one_lowercase_v supported_example _ 0 "V"%char "1" Hself Hc)
    as (_ & _ & HV & Hvv).
  split; [exact HV|exact Hvv].
Defined.


(** C10, witness: the caller's session, a header, the unsupported ["2"]. *)
Lemma C10_failed_construction_witness :
  let headers : gmap string string := <["X-Foo" := "bar"]> ∅ in
  sessions w_session !! 0 = Some session_example ∧
  (normalized "2" ∉ supported_example) ∧
  Py.headers session_example !! "X-Foo" = None ∧
  ∃ w' s',
    construct supported_example "a@b.com" "k" "acme" "t" "2" false
              None (Some headers) (Some 0) w_session
      = (w', Raise (OrdwayClientException (unsupported_message "2"))) ∧
    sessions w' !! 0 = Some s' ∧
    Py.headers s' !! "X-Foo" = Some "bar".
Proof.
  cbv zeta.
  assert (Hs : sessions w_session !! 0 = Some session_example) by reflexivity.
  assert (Hn : normalized "2" ∉ supported_example) by unsupported.
  split; [exact Hs|]. split; [exact Hn|]. split; [run|].
  destruct (C10_failed_construction_has_merged supported_example w_session "a@b.com" "k"
              "acme" "t" "2" false None (<["X-Foo" := "bar"]> ∅) 0 session_example Hs Hn)
    as (w' & s' & Hrun & Hlook & _ & Hin & _).
  exists w', s'. split; [exact Hrun|]. split; [exact Hlook|].
  apply Hin. run.
Defined.

(** C8, witness: a client used as a scope whose body issues nothing. *)
Lemma C8_scope_witness :
  let w1 := (construct supported_example "a@b.com" "k" "acme" "t" "1" false
                       None None None w_empty).1 in
  let w2 := (with_statement 0 (λ c, mret c) w1).1 in
  (with_statement 0 (λ c, mret c) w1).2 = Ok 0 ∧
  close_calls <$> sessions w1 !! 0 = Some 0 ∧
  close_calls <$> sessions w2 !! 0 = Some 1 ∧
  (__exit__ 0 w2).2 = Ok tt.
Proof.
  cbv zeta.
  pose proof (pair_eta (construct supported_example "a@b.com" "k" "acme" "t" "1" false
                                  None None None w_empty) (Ok 0) ltac:(run)) as Hc.
  destruct (construct_ok_fresh_session _ _ _ _ _ _ _ _ _ _ _ _ Hc) as (o & Ho & Hs & Hr).
  change (length (sessions w_empty)) with 0 in Hs, Hr.
  destruct (C8_scope_closes_once _ 0 (λ c, mret c) _ (Ok 0) o 0 _ eq_refl Ho Hs Hr)
    as [Hwith Hexit].
  rw Hwith. cbn [fst snd]. rw Hexit Hr. cbn [sessions snd].
  split; [reflexivity|]. split; [reflexivity|]. split; [|reflexivity].
  rw list_lookup_insert_eq; [reflexivity|]. exact (lookup_lt_Some _ _ _ Hr).
Defined.

(** ** The further properties on sample data *)

(** X1, witness: a sandbox client built on the empty world. *)
Lemma X1_constructed_client_witness :
  let w1 := (construct supported_example "a@b.com" "k" "acme" "t" "v1" true
                       None None None w_empty).1 in
  (construct supported_example "a@b.com" "k" "acme" "t" "v1" true None None None w_empty
    = (w1, Ok 0)) ∧
  ∃ o, objects w1 !! 0 = Some o ∧
       o !! "email" = Some (VStr "a@b.com") ∧
       o !! "headers" = Some VNone ∧
       o !! "products" = Some (VInterface "Products" 0 true) ∧
       o !! "chart_of_accounts" = Some (VInterface "ChartOfAccounts" 0 true).
Proof.
  cbv zeta.
  pose proof (pair_eta (construct supported_example "a@b.com" "k" "acme" "t" "v1" true
                                  None None None w_empty) (Ok 0) ltac:(run)) as Hc.
  split; [exact Hc|].
  destruct (X1_constructed_client_attributes supported_example _ _ _ _ _ _ _ _ _ _ _ _ Hc)
    as (o & Ho & He & _ & _ & _ & _ & Hh & _ & Hint & _).
  exists o. split; [exact Ho|]. split; [exact He|]. split; [exact Hh|].
  split; apply Hint; [by left|by do 19 right; left].
Defined.

(** X4, witness: a failed assignment on a constructed client. *)
Lemma X4_setter_frame_witness :
  let w1 := (construct supported_example "a@b.com" "k" "acme" "t" "1" false
                       None None None w_empty).1 in
  let w' := (api_version_setter supported_example 0 "2" w1).1 in
  is_Some (objects w1 !! 0) ∧ sessions w' = sessions w1 ∧ log w' = log w1.
Proof.
  cbv zeta.
  pose proof (pair_eta (construct supported_example "a@b.com" "k" "acme" "t" "1" false
                                  None None None w_empty) (Ok 0) ltac:(run)) as Hc.
  destruct (construct_ok_getter supported_example _ _ _ _ _ _ _ _ _ _ _ _ Hc)
    as (_ & [o Ho] & _).
  split; [by exists o|].
  destruct (X4_setter_frame supported_example _ 0 o "2" Ho) as (Hs & Hl & _).
  split; [exact Hs|exact Hl].
Defined.

(** X7, witness: the sample environment with and without [HOME]. *)
Lemma X7_from_env_reads_five_witness :
  (∀ name, name ∈ required_env_vars ++ ["ORDWAY_API_VERSION"] →
           environ_example !! name = <["HOME" := "/root"]> environ_example !! name) ∧
  from_env supported_example environ_example w_empty
    = from_env supported_example (<["HOME" := "/root"]> environ_example) w_empty.
Proof.
  assert (Hagree : ∀ name, name ∈ required_env_vars ++ ["ORDWAY_API_VERSION"] →
             environ_example !! name = <["HOME" := "/root"]> environ_example !! name).
  { intros name Hin. symmetry. apply lookup_insert_ne. intros <-. revert Hin.
    rw /required_env_vars /= !elem_of_cons elem_of_nil.
    by intros [?|[?|[?|[?|[?|[]]]]]]. }
  split; [exact Hagree|].
  exact (X7_from_env_reads_five_variables supported_example w_empty _ _ Hagree).
Defined.

(** X9, witness: a client built with ["v1"] reports ["1"]. *)
Lemma X9_reassigning_witness :
  let w1 := (construct supported_example "a@b.com" "k" "acme" "t" "v1" false
                       None None None w_empty).1 in
  startswith (normalized "v1") "v" = false ∧
  api_version 0 w1 = (w1, Ok "1") ∧
  api_version_setter supported_example 0 "1" w1 = (w1, Ok tt).
Proof.
  cbv zeta.
  pose proof (pair_eta (construct supported_example "a@b.com" "k" "acme" "t" "v1" false
                                  None None None w_empty) (Ok 0) ltac:(run)) as Hc.
  assert (Hs : startswith (normalized "v1") "v" = false) by reflexivity.
  split; [exact Hs|].
  exact (X9_reassigning_current_version supported_example _ _ _ _ _ _ _ _ _ _ _ _ Hc Hs).
Defined.

(** X8, witness: two clients on the caller's session, each with its own
    value for the header [X-Foo]. *)
Lemma X8_shared_session_witness :
  let h1 : gmap string string := <["X-Foo" := "bar"]> ∅ in
  let h2 : gmap string string := <["X-Foo" := "baz"]> ∅ in
  let w1 := (construct supported_example "a@b.com" "k" "acme" "t" "1" false
                       None (Some h1) (Some 0) w_session).1 in
  let w2 := (construct supported_example "c@d.com" "l" "acme" "u" "1" true
                       None (Some h2) (Some 0) w1).1 in
  sessions w_session !! 0 = Some session_example ∧
  0 ≠ 1 ∧
  (∃ s2, sessions w2 !! 0 = Some s2 ∧
         Py.headers s2 !! "X-Foo" = Some "baz" ∧
         Py.headers s2 !! "User-Agent" = Some "python-requests") ∧
  ∃ w3 s3, __exit__ 0 w2 = (w3, Ok tt) ∧ sessions w3 !! 0 = Some s3 ∧ close_calls s3 = 1.
Proof.
  cbv zeta.
  assert (Hr : sessions w_session !! 0 = Some session_example) by reflexivity.
  pose proof (pair_eta (construct supported_example "a@b.com" "k" "acme" "t" "1" false
                                  None (Some (<["X-Foo" := "bar"]> ∅)) (Some 0) w_session)
                       (Ok 0) ltac:(run)) as Hc1.
  pose proof (pair_eta (construct supported_example "c@d.com" "l" "acme" "u" "1" true
                          None (Some (<["X-Foo" := "baz"]> ∅)) (Some 0)
                          (construct supported_example "a@b.com" "k" "acme" "t" "1" false
                             None (Some (<["X-Foo" := "bar"]> ∅)) (Some 0) w_session).1)
                       (Ok 1) ltac:(run)) as Hc2.
  destruct (X8_clients_share_a_supplied_session supported_example _ _ _ _ _ _ _
              _ _ _ _ _ _ _ _ _ _ _ _ _ _ _ _ Hr Hc1 Hc2)
    as (Hne & _ & (s2 & Hs2 & Hh & _ & _) & (w3 & s3 & Hexit & Hs3 & Hcl & _)).
  split; [exact Hr|]. split; [exact Hne|].
  split.
  - exists s2. split; [exact Hs2|]. rw Hh. split; run.
  - exists w3, s3. split; [exact Hexit|]. split; [exact Hs3|]. exact Hcl.
Defined.

(** X10, witness: two clients built without a session. *)
Lemma X10_separate_sessions_witness :
  let w1 := (construct supported_example "a@b.com" "k" "acme" "t" "1" false
                       None None None w_empty).1 in
  let w2 := (construct supported_example "c@d.com" "l" "acme" "u" "1" true
                       None None None w1).1 in
  ∃ r1 r2, r1 ≠ r2 ∧
    ∃ w3, __exit__ 0 w2 = (w3, Ok tt) ∧
          close_calls <$> sessions w3 !! r1 = Some 1 ∧
          close_calls <$> sessions w3 !! r2 = Some 0.
Proof.
  cbv zeta.
  pose proof (pair_eta (construct supported_example "a@b.com" "k" "acme" "t" "1" false
                                  None None None w_empty) (Ok 0) ltac:(run)) as Hc1.
  pose proof (pair_eta (construct supported_example "c@d.com" "l" "acme" "u" "1" true
                          None None None
                          (construct supported_example "a@b.com" "k" "acme" "t" "1" false
                             None None None w_empty).1)
                       (Ok 1) ltac:(run)) as Hc2.
  destruct (X10_default_sessions_are_separate supported_example _ _ _ _ _
              _ _ _ _ _ _ _ _ _ _ _ _ _ _ _ _ Hc1 Hc2)
    as (o1 & o2 & r1 & r2 & _ & _ & _ & _ & Hne & w3 & Hexit & H1 & H2).
  exists r1, r2. split; [exact Hne|]. exists w3. split; [exact Hexit|]. by split.
Defined.

End OrdwayClient.
